(** * watchman: internal/database/mysql.go

    A shallow embedding of the MySQL bootstrap code of
    [internal/database/mysql.go]: the migration registry [mysqlMigrator],
    the connection string built by [mysqlConnection], the
    open / ping / migrate sequence of [Connect], the teardown
    [TestMySQLDB.Close] and the test provider [CreateTestMySQLDB].

    The SQL driver, the docker runtime and the testing framework are
    outside the file.  Each of their operations is a call to an
    environment [Externals] that answers from the history of calls made so far;
    every call is appended to that history, so the order of the calls a
    function makes can be read off the trace it leaves. *)

From Stdlib Require Import String Ascii List Bool Arith Lia Permutation.
Import ListNotations.
Open Scope string_scope.

(** ** Go values *)

(** A Go [error] value; [nil] is [None] of [option error]. *)
Inductive error : Type :=
| Err (msg : string).

(** [*sql.DB], [*dockertest.Resource] and [*dockertest.Pool] are pointers
    handed out by the libraries: nil, or the identity of an object. *)
Inductive sqlDB : Type := nilDB | DBHandle (n : nat).
Inductive Resource : Type := nilResource | ContainerHandle (n : nat).
Inductive Pool : Type := nilPool | PoolHandle (n : nat).

(** [log.Logger]: the file only stores it and creates the no-op one. *)
Inductive Logger : Type :=
| NopLogger
| KitLogger (sink : nat).

Definition sqlDB_eqb (a b : sqlDB) : bool :=
  match a, b with
  | nilDB, nilDB => true
  | DBHandle x, DBHandle y => Nat.eqb x y
  | _, _ => false
  end.

Definition Resource_eqb (a b : Resource) : bool :=
  match a, b with
  | nilResource, nilResource => true
  | ContainerHandle x, ContainerHandle y => Nat.eqb x y
  | _, _ => false
  end.

(** ** fmt.Sprintf, for the verb the file uses *)

Module fmt.

(** What Go prints for arguments the format did not consume. *)
Definition extra (args : list string) : string :=
  match args with
  | [] => ""
  | _ => "%!(EXTRA " ++ String.concat ", " (map (fun a => "string=" ++ a) args) ++ ")"
  end.

(** [fmt.Sprintf] on string arguments with the [%s] verb: each [%s] is
    replaced by the next argument, every other character is copied.  The
    formats of the file have this verb only; other verbs, flags and the
    doubled percent sign are outside this model. *)
Fixpoint Sprintf (format : string) (args : list string) : string :=
  match format with
  | EmptyString => extra args
  | String "%" (String "s" rest) =>
      match args with
      | a :: args' => a ++ Sprintf rest args'
      | [] => "%!s(MISSING)" ++ Sprintf rest []
      end
  | String c rest => String c (Sprintf rest args)
  end.

End fmt.

(** ** The migration library

    [mysqlMigrator] is built by [migrator.New] from the results of
    [execsql] and run by its [Migrate] method.  Neither the library nor
    [execsql] is in the file; the Steps and the runner are written here
    after the specification of the Migration Registry and the Migration
    Runner, and [New] as the file calls it. *)

Module migrator.

(** Modelled from the spec: the Migration Step, an identifier plus an
    ordered sequence of SQL statements (the library's migration type is
    not part of the file). *)
Record Step : Type := Build_Step {
  id : string;
  statements : list string
}.

(** Modelled from the spec: the Migration Registry, an ordered sequence of
    Steps, insertion order being application order. *)
Record Migrator : Type := Build_Migrator {
  steps : list Step
}.

Definition ids (l : list Step) : list string := map id l.

(** [mem i rows]: the identifier [i] is among [rows]. *)
Definition mem (i : string) (rows : list string) : bool :=
  existsb (String.eqb i) rows.

(** No identifier occurs twice. *)
Fixpoint unique (l : list string) : bool :=
  match l with
  | [] => true
  | i :: rest => negb (mem i rest) && unique rest
  end.

(** Modelled from the spec: [migrator.New], not part of the file, builds
    the Migration Registry, the ordered sequence of the Steps given.  The
    specification also asks that duplicate ids be rejected at construction.
    The file shows the call only: the declaration of [mysqlMigrator] binds
    the single result of [New], the migrator, and has no error to look at.
    [New] is modelled as that call shows it: it yields the migrator that
    holds the Steps given, in the order given, and checks nothing. *)
Definition New (migrations : list Step) : Migrator :=
  {| steps := migrations |}.

(** One Step that [Migrate] attempted, with its position in the Registry
    (counted from 1) and the result of executing it. *)
Inductive attempt : Type :=
| Attempt (position : nat) (step : string) (result : option error).

Definition position_of (a : attempt) : nat :=
  match a with Attempt k _ _ => k end.

Definition result_of (a : attempt) : option error :=
  match a with Attempt _ _ r => r end.

Section Runner.

(** The schema a handle gives access to, and the execution of one SQL
    statement on it: the schema afterwards and the error, if any.  A
    failed statement may leave changes behind. *)
Variable Schema : Type.
Variable exec : string -> Schema -> Schema * option error.

(** Modelled from the spec: the database behind a handle, its schema and
    the Migration Tracker, a table of applied Step ids that exists
    ([Some]) or not yet ([None]). *)
Record Database : Type := Build_Database {
  schema : Schema;
  tracker : option (list string)
}.

(** The rows of the Tracker; none when the table is absent. *)
Definition rows (db : Database) : list string :=
  match tracker db with
  | None => []
  | Some l => l
  end.

Definition recorded (i : string) (db : Database) : bool := mem i (rows db).

(** The statements of one Step, in order, up to the first failure. *)
Fixpoint execute (stmts : list string) (s : Schema) : Schema * option error :=
  match stmts with
  | [] => (s, None)
  | q :: rest =>
      let (s', r) := exec q s in
      match r with
      | Some e => (s', Some e)
      | None => execute rest s'
      end
  end.

(** What one call of [Migrate] leaves and reports. *)
Record report : Type := Build_report {
  final : Database;
  attempts : list attempt;
  result : option error
}.

(** Modelled from the spec: step 2 of the Migration Runner.  For each Step
    in Registry order: skip it if its id is in the Tracker; otherwise
    execute its statements and, on success, record its id; on failure
    stop and return the error. *)
Fixpoint run (k : nat) (l : list Step) (s : Schema) (applied : list string) : report :=
  match l with
  | [] => {| final := {| schema := s; tracker := Some applied |};
             attempts := [];
             result := None |}
  | st :: rest =>
      if mem (id st) applied then run (S k) rest s applied
      else
        let (s', r) := execute (statements st) s in
        match r with
        | Some e => {| final := {| schema := s'; tracker := Some applied |};
                       attempts := [Attempt k (id st) (Some e)];
                       result := Some e |}
        | None =>
            let rep := run (S k) rest s' (applied ++ [id st])%list in
            {| final := final rep;
               attempts := Attempt k (id st) None :: attempts rep;
               result := result rep |}
        end
  end.

(** Modelled from the spec: [Migrate] of the Migration Runner, not part of
    the file.  Step 1 ensures the Tracker table exists (created empty if
    absent), step 2 is [run] over the Registry. *)
Definition Migrate (m : Migrator) (db : Database) : report :=
  run 1 (steps m) (schema db) (rows db).

(** [Migrate] fails at Step [k] with error [e]. *)
Definition fails_at (m : Migrator) (db : Database) (k : nat) (e : error) : Prop :=
  result (Migrate m db) = Some e /\
  exists i, In (Attempt k i (Some e)) (attempts (Migrate m db)).

(** The Tracker holds the ids of a prefix of the Registry, as it does on a
    fresh database and after every run of [Migrate] on such a database. *)
Definition applied_prefix (m : Migrator) (db : Database) : Prop :=
  exists n, rows db = ids (firstn n (steps m)).

End Runner.

Arguments schema {Schema} d.
Arguments tracker {Schema} d.
Arguments rows {Schema} db.
Arguments recorded {Schema} i db.
Arguments final {Schema} r.
Arguments attempts {Schema} r.
Arguments result {Schema} r.
Arguments Build_Database {Schema} schema tracker.
Arguments Build_report {Schema} final attempts result.
Arguments applied_prefix {Schema} m db.
Arguments execute {Schema} exec stmts s.
Arguments run {Schema} exec k l s applied.
Arguments Migrate {Schema} exec m db.
Arguments fails_at {Schema} exec m db k e.

End migrator.

(** Modelled from the spec: [execsql], a function of the package defined
    in another file; it makes the Step named [name] whose only statement is
    [raw]. *)
Definition execsql (name raw : string) : migrator.Step :=
  {| migrator.id := name; migrator.statements := [raw] |}.

(** The arguments of [migrator.New] in the declaration of [mysqlMigrator]. *)
Definition mysqlMigrations : list migrator.Step :=
  [ execsql
      "create_customer_name_watches"
      "create table if not exists customer_name_watches(id varchar(40) primary key, name varchar(40), webhook varchar(512), auth_token varchar(128), created_at datetime, deleted_at datetime);";
    execsql
      "create_customer_status"
      "create table if not exists customer_status(customer_id varchar(40), user_id varchar(40), note varchar(1024), status varchar(10), created_at datetime, deleted_at datetime);";
    execsql
      "create_customer_watches"
      "create table if not exists customer_watches(id varchar(40) primary key, customer_id varchar(40), webhook varchar(512), auth_token varchar(128), created_at datetime, deleted_at datetime);";
    execsql
      "create_company_name_watches"
      "create table if not exists company_name_watches(id varchar(40) primary key, name varchar(256), webhook varchar(512), auth_token varchar(128), created_at datetime, deleted_at datetime);";
    execsql
      "create_company_status"
      "create table if not exists company_status(company_id varchar(40), user_id varchar(40), note varchar(1024), status varchar(10), created_at datetime, deleted_at datetime);";
    execsql
      "create_company_watches"
      "create table if not exists company_watches(id varchar(40) primary key, company_id varchar(40), webhook varchar(512), auth_token varchar(128), created_at datetime, deleted_at datetime);";
    execsql
      "create_ofac_download_stats"
      "create table if not exists ofac_download_stats(downloaded_at datetime, sdns integer, alt_names integer, addresses integer);";
    execsql
      "create_webhook_stats"
      "create table if not exists webhook_stats(watch_id varchar(40), attempted_at datetime, status varchar(10));";
    execsql "add__denied_persons__to__ofac_download_stats" "alter table ofac_download_stats add column denied_persons integer not null default 0;"
  ].

Definition mysqlMigrator : migrator.Migrator :=
  migrator.New mysqlMigrations.

(** ** The connection configuration *)

(** [type mysql struct { dsn string; logger log.Logger }] *)
Record mysql : Type := Build_mysql {
  dsn : string;
  logger : Logger
}.

(** The literal option string of [mysqlConnection]. *)
Definition mysqlOptions : string :=
  "timeout=30s&tls=false&charset=utf8mb4&parseTime=true&sql_mode=ALLOW_INVALID_DATES".

Definition mysqlConnection (logger : Logger) (user pass address database : string) : mysql :=
  let dsn := fmt.Sprintf "%s:%s@%s/%s?%s" [user; pass; address; database; mysqlOptions] in
  {| dsn := dsn; logger := logger |}.

(** The defaults in the words and the order of the specification, each
    as the driver parameter that sets it: connect timeout of 30 seconds,
    encryption disabled, UTF-8 multibyte character set, lenient date
    handling, server-side time parsing enabled. *)
Definition spec_defaults : list (string * string) :=
  [ ("timeout", "30s");
    ("tls", "false");
    ("charset", "utf8mb4");
    ("sql_mode", "ALLOW_INVALID_DATES");
    ("parseTime", "true") ].

(** Splitting a string at a separator character. *)
Fixpoint split_on (sep : ascii) (s : string) : list string :=
  match s with
  | EmptyString => [EmptyString]
  | String c rest =>
      if Ascii.eqb c sep then EmptyString :: split_on sep rest
      else match split_on sep rest with
           | [] => [String c EmptyString]
           | w :: ws => String c w :: ws
           end
  end.

(** A [key=value] item read as a pair; an item without [=] has an empty value. *)
Definition parse_param (item : string) : string * string :=
  match split_on "="%char item with
  | [] => (EmptyString, EmptyString)
  | k :: vs => (k, String.concat "=" vs)
  end.

(** The [key=value&key=value...] part of a data source name, read as pairs. *)
Definition parse_params (query : string) : list (string * string) :=
  map parse_param (split_on "&"%char query).

(** ** The outside world *)

(** [dockertest.RunOptions], the fields the file sets. *)
Record RunOptions : Type := Build_RunOptions {
  Repository : string;
  Tag : string;
  Env : list string
}.

(** One entry of the history: a call to a library, with the answer it
    gave, or a [t.Skip] / [t.Fatal] of the test. *)
Inductive event : Type :=
| EvOpen (driverName dataSourceName : string) (r : sqlDB * option error)
| EvPing (db : sqlDB) (r : option error)
| EvMigrate (db : sqlDB) (r : option error)
| EvDBClose (db : sqlDB) (r : option error)
| EvResourceClose (c : Resource) (r : option error)
| EvShort (b : bool)
| EvDockerEnabled (b : bool)
| EvNewPool (endpoint : string) (r : Pool * option error)
| EvRunWithOptions (p : Pool) (opts : RunOptions) (r : Resource * option error)
| EvSkip (msg : string)
| EvFatal (e : error).

Definition trace : Type := list event.

(** The history with one more entry at its end. *)
Definition record (h : trace) (e : event) : trace := (h ++ [e])%list.

(** The libraries the file calls.  A Go result [(v, err)] is a pair, an
    [error] result is [None] for nil.  Every answer may depend on all
    that happened before. *)
Record Externals : Type := Build_Externals {
  ext_Open : trace -> string -> string -> sqlDB * option error;
  ext_Ping : trace -> sqlDB -> option error;
  ext_Migrate : trace -> sqlDB -> option error;
  ext_DBClose : trace -> sqlDB -> option error;
  ext_ResourceClose : trace -> Resource -> option error;
  ext_Short : trace -> bool;
  ext_DockerEnabled : trace -> bool;
  ext_NewPool : trace -> string -> Pool * option error;
  ext_RunWithOptions : trace -> Pool -> RunOptions -> Resource * option error;
  ext_GetPort : Resource -> string -> string;
  ext_RetryBudget : nat
}.

(** ** Computations that call the outside world *)

(** A computation reads and extends the history. *)
Definition M (A : Type) : Type := trace -> A * trace.

Definition ret {A : Type} (a : A) : M A := fun h => (a, h).

Definition bind {A B : Type} (m : M A) (k : A -> M B) : M B :=
  fun h => let (a, h') := m h in k a h'.

(** How a test function ends: it returns, or [t.Skip] / [t.Fatal] stop
    it on the spot (both leave through [runtime.Goexit]). *)
Inductive outcome (A : Type) : Type :=
| Returned (a : A)
| Skipped (msg : string)
| Fatal (e : error).

Arguments Returned {A} a.
Arguments Skipped {A} msg.
Arguments Fatal {A} e.

Definition T (A : Type) : Type := trace -> outcome A * trace.

Definition retT {A : Type} (a : A) : T A := fun h => (Returned a, h).

Definition bindT {A B : Type} (m : T A) (k : A -> T B) : T B :=
  fun h =>
    match m h with
    | (Returned a, h') => k a h'
    | (Skipped msg, h') => (Skipped msg, h')
    | (Fatal e, h') => (Fatal e, h')
    end.

Definition lift {A : Type} (m : M A) : T A :=
  fun h => let (a, h') := m h in (Returned a, h').

Declare Scope go_scope.
Delimit Scope go_scope with go.
Notation "x <- m ;; k" := (bind m (fun x => k))
  (at level 61, m at next level, right associativity) : go_scope.
Notation "x <~ m ;; k" := (bindT m (fun x => k))
  (at level 61, m at next level, right associativity) : go_scope.
Notation "m ;;; k" := (bindT m (fun _ => k))
  (at level 61, right associativity) : go_scope.

(** [type TestMySQLDB struct { DB *sql.DB; container *dockertest.Resource }] *)
Record TestMySQLDB : Type := Build_TestMySQLDB {
  DB : sqlDB;
  container : Resource
}.

Section Program.

Variable X : Externals.

Local Open Scope go_scope.

(** *** The library calls *)

Definition sql_Open (driverName dataSourceName : string) : M (sqlDB * option error) :=
  fun h => let r := ext_Open X h driverName dataSourceName in
           (r, record h (EvOpen driverName dataSourceName r)).

Definition DB_Ping (db : sqlDB) : M (option error) :=
  fun h => let r := ext_Ping X h db in (r, record h (EvPing db r)).

(** [mysqlMigrator.Migrate(db)] *)
Definition mysqlMigrator_Migrate (db : sqlDB) : M (option error) :=
  fun h => let r := ext_Migrate X h db in (r, record h (EvMigrate db r)).

Definition DB_Close (db : sqlDB) : M (option error) :=
  fun h => let r := ext_DBClose X h db in (r, record h (EvDBClose db r)).

Definition Resource_Close (c : Resource) : M (option error) :=
  fun h => let r := ext_ResourceClose X h c in (r, record h (EvResourceClose c r)).

Definition testing_Short : M bool :=
  fun h => let b := ext_Short X h in (b, record h (EvShort b)).

Definition docker_Enabled : M bool :=
  fun h => let b := ext_DockerEnabled X h in (b, record h (EvDockerEnabled b)).

Definition dockertest_NewPool (endpoint : string) : M (Pool * option error) :=
  fun h => let r := ext_NewPool X h endpoint in (r, record h (EvNewPool endpoint r)).

Definition Pool_RunWithOptions (p : Pool) (opts : RunOptions) : M (Resource * option error) :=
  fun h => let r := ext_RunWithOptions X h p opts in
           (r, record h (EvRunWithOptions p opts r)).

Definition Resource_GetPort (c : Resource) (id : string) : string :=
  ext_GetPort X c id.

Definition t_Skip (msg : string) : T unit :=
  fun h => (Skipped msg, record h (EvSkip msg)).

Definition t_Fatal (e : error) : T unit :=
  fun h => (Fatal e, record h (EvFatal e)).

(** Modelled from the spec: [pool.Retry] of the dockertest library, which
    is not part of the file.  The specification describes a bounded retry
    loop: the operation is attempted until it succeeds or the retry budget
    is exhausted, and then the failure is reported.  [budget] counts the
    attempts allowed after the first one. *)
Fixpoint Pool_Retry (budget : nat) (op : M (option error)) : M (option error) :=
  r <- op;;
  match r with
  | None => ret None
  | Some e =>
      match budget with
      | 0 => ret (Some e)
      | S budget' => Pool_Retry budget' op
      end
  end.

(** *** [Connect], a method of [*mysql]; it returns a [*sql.DB] and an [error] *)
Definition Connect (my : mysql) : M (sqlDB * option error) :=
  r <- sql_Open "mysql" (dsn my);;
  let (db, err) := r in
  match err with
  | Some err => ret (nilDB, Some err)
  | None =>
      (* Check out DB is up and working *)
      perr <- DB_Ping db;;
      match perr with
      | Some err => ret (nilDB, Some err)
      | None =>
          (* Migrate our database *)
          merr <- mysqlMigrator_Migrate db;;
          match merr with
          | Some err => ret (nilDB, Some err)
          | None => ret (db, None)
          end
      end
  end.

(** *** [func (r *TestMySQLDB) Close() error]

    Both calls are made whatever the parts of [r] are.  With a nil part
    the Go call is still made and the library fails inside it; what the
    libraries do is the outside world's, and a failure of that kind is
    not part of this model.  [CreateTestMySQLDB] returns no such [r]. *)
Definition Close (r : TestMySQLDB) : M (option error) :=
  _ <- Resource_Close (container r);;
  DB_Close (DB r).

(** *** [func CreateTestMySQLDB(t *testing.T) *TestMySQLDB] *)

Definition testRunOptions : RunOptions :=
  {| Repository := "mysql";
     Tag := "8";
     Env := [ "MYSQL_USER=moov";
              "MYSQL_PASSWORD=secret";
              "MYSQL_ROOT_PASSWORD=secret";
              "MYSQL_DATABASE=ofac" ] |}.

(** The function literal given to [pool.Retry]: open, ping, and close on
    the way out ([defer db.Close()]); the result is the ping's. *)
Definition probe (resource : Resource) : M (option error) :=
  r <- sql_Open "mysql"
         (fmt.Sprintf "moov:secret@tcp(localhost:%s)/ofac"
                      [Resource_GetPort resource "3306/tcp"]);;
  let (db, err) := r in
  match err with
  | Some err => ret (Some err)
  | None =>
      perr <- DB_Ping db;;
      _ <- DB_Close db;;
      ret perr
  end.

Definition CreateTestMySQLDB : T TestMySQLDB :=
  short <~ lift testing_Short;;
  (if short then t_Skip "-short flag enabled" else retT tt);;;
  enabled <~ lift docker_Enabled;;
  (if negb enabled then t_Skip "Docker not enabled" else retT tt);;;
  p <~ lift (dockertest_NewPool "");;
  let (pool, err) := p in
  match err with Some err => t_Fatal err | None => retT tt end;;;
  c <~ lift (Pool_RunWithOptions pool testRunOptions);;
  let (resource, err) := c in
  match err with Some err => t_Fatal err | None => retT tt end;;;
  err <~ lift (Pool_Retry (ext_RetryBudget X) (probe resource));;
  match err with
  | Some err => lift (Resource_Close resource);;; t_Fatal err
  | None => retT tt
  end;;;
  let logger := NopLogger in
  let address := fmt.Sprintf "tcp(localhost:%s)" [Resource_GetPort resource "3306/tcp"] in
  d <~ lift (Connect (mysqlConnection logger "moov" "secret" address "ofac"));;
  let (db, err) := d in
  match err with Some err => t_Fatal err | None => retT tt end;;;
  retT {| DB := db; container := resource |}.

End Program.

(** ** A scripted outside world

    Every call succeeds, except that pinging answers [ping_err] and
    migrating answers [migrate_err]; closing a handle or a container a
    second time is answered as the libraries do (nil for the handle, an
    error for the container, which is gone). *)

Definition closed_before (db : sqlDB) (h : trace) : bool :=
  existsb (fun ev => match ev with
                     | EvDBClose db' _ => sqlDB_eqb db db'
                     | _ => false
                     end) h.

(** [removed_before c h]: the history holds a call that closes the
    container [c], whatever that call answered. *)
Definition removed_before (c : Resource) (h : trace) : bool :=
  existsb (fun ev => match ev with
                     | EvResourceClose c' _ => Resource_eqb c c'
                     | _ => false
                     end) h.

Definition scripted (ping_err migrate_err : option error) : Externals :=
  {| ext_Open := fun h _ _ => (DBHandle (S (length h)), None);
     ext_Ping := fun _ _ => ping_err;
     ext_Migrate := fun _ _ => migrate_err;
     ext_DBClose := fun _ _ => None;
     ext_ResourceClose := fun h c =>
       if removed_before c h then Some (Err "No such container") else None;
     ext_Short := fun _ => false;
     ext_DockerEnabled := fun _ => true;
     ext_NewPool := fun _ _ => (PoolHandle 1, None);
     ext_RunWithOptions := fun h _ _ => (ContainerHandle (S (length h)), None);
     ext_GetPort := fun _ _ => "32768";
     ext_RetryBudget := 2 |}.

(** ** Reading a trace *)

Open Scope list_scope.

(** The calls a computation makes when started after the history [h]. *)
Definition calls_of {A : Type} (m : M A) (h : trace) : trace :=
  skipn (length h) (snd (m h)).

(** The error a library call answered with, if any. *)
Definition error_of (ev : event) : option error :=
  match ev with
  | EvOpen _ _ (_, e) => e
  | EvPing _ e => e
  | EvMigrate _ e => e
  | EvDBClose _ e => e
  | EvResourceClose _ e => e
  | EvNewPool _ (_, e) => e
  | EvRunWithOptions _ _ (_, e) => e
  | EvShort _ | EvDockerEnabled _ | EvSkip _ | EvFatal _ => None
  end.

(** The handles opened without error in a trace. *)
Fixpoint opened (t : trace) : list sqlDB :=
  match t with
  | [] => []
  | EvOpen _ _ (db, None) :: t' => db :: opened t'
  | _ :: t' => opened t'
  end.

(** The containers started without error in a trace. *)
Fixpoint started (t : trace) : list Resource :=
  match t with
  | [] => []
  | EvRunWithOptions _ _ (c, None) :: t' => c :: started t'
  | _ :: t' => started t'
  end.

(** The position of the first entry of a trace that satisfies [p]. *)
Fixpoint first_index (p : event -> bool) (t : trace) : option nat :=
  match t with
  | [] => None
  | ev :: t' => if p ev then Some 0 else option_map S (first_index p t')
  end.

Definition is_DBClose (db : sqlDB) (ev : event) : bool :=
  match ev with EvDBClose db' _ => sqlDB_eqb db db' | _ => false end.

Definition is_ResourceClose (c : Resource) (ev : event) : bool :=
  match ev with EvResourceClose c' _ => Resource_eqb c c' | _ => false end.

(** In the trace [t] both parts of [r] are torn down, the provisioned
    instance before the connection handle. *)
Definition instance_before_handle (r : TestMySQLDB) (t : trace) : bool :=
  match first_index (is_ResourceClose (container r)) t,
        first_index (is_DBClose (DB r)) t with
  | Some i, Some j => Nat.ltb i j
  | _, _ => false
  end.

(** In the trace [t] both parts of [r] are torn down, the connection
    handle before the provisioned instance. *)
Definition handle_before_instance (r : TestMySQLDB) (t : trace) : bool :=
  match first_index (is_DBClose (DB r)) t,
        first_index (is_ResourceClose (container r)) t with
  | Some i, Some j => Nat.ltb i j
  | _, _ => false
  end.

(** The calls that go to the database server. *)
Definition database_call (ev : event) : bool :=
  match ev with
  | EvOpen _ _ _ | EvPing _ _ | EvMigrate _ _ | EvDBClose _ _ => true
  | _ => false
  end.

(** The containers a trace starts and makes no call to close. *)
Definition left_running (t : trace) : list Resource :=
  filter (fun c => negb (removed_before c t)) (started t).

(** The runs of [Connect] on a data source name: the calls made and the
    pair returned. *)
Inductive connect_run (dataSourceName : string) : trace -> sqlDB * option error -> Prop :=
| connect_open_failed (db : sqlDB) (e : error) :
    connect_run dataSourceName
      [EvOpen "mysql" dataSourceName (db, Some e)]
      (nilDB, Some e)
| connect_ping_failed (db : sqlDB) (e : error) :
    connect_run dataSourceName
      [EvOpen "mysql" dataSourceName (db, None); EvPing db (Some e)]
      (nilDB, Some e)
| connect_migrate_failed (db : sqlDB) (e : error) :
    connect_run dataSourceName
      [EvOpen "mysql" dataSourceName (db, None); EvPing db None;
       EvMigrate db (Some e)]
      (nilDB, Some e)
| connect_done (db : sqlDB) :
    connect_run dataSourceName
      [EvOpen "mysql" dataSourceName (db, None); EvPing db None;
       EvMigrate db None]
      (db, None).

(** The configuration [CreateTestMySQLDB] connects with. *)
Definition test_config (X : Externals) (resource : Resource) : mysql :=
  mysqlConnection NopLogger "moov" "secret"
    (fmt.Sprintf "tcp(localhost:%s)" [Resource_GetPort X resource "3306/tcp"])
    "ofac".

(** The calls up to the start of the container. *)
Definition provisioning (pool : Pool) (c : Resource) : trace :=
  [EvShort false; EvDockerEnabled true; EvNewPool "" (pool, None);
   EvRunWithOptions pool testRunOptions (c, None)].

(** The runs of [CreateTestMySQLDB]: the calls made and how it ends. *)
Inductive provider_run (X : Externals) : trace -> outcome TestMySQLDB -> Prop :=
| run_short :
    provider_run X
      [EvShort true; EvSkip "-short flag enabled"]
      (Skipped "-short flag enabled")
| run_no_docker :
    provider_run X
      [EvShort false; EvDockerEnabled false; EvSkip "Docker not enabled"]
      (Skipped "Docker not enabled")
| run_no_pool (pool : Pool) (e : error) :
    provider_run X
      [EvShort false; EvDockerEnabled true; EvNewPool "" (pool, Some e);
       EvFatal e]
      (Fatal e)
| run_no_container (pool : Pool) (c : Resource) (e : error) :
    provider_run X
      [EvShort false; EvDockerEnabled true; EvNewPool "" (pool, None);
       EvRunWithOptions pool testRunOptions (c, Some e); EvFatal e]
      (Fatal e)
| run_unreachable (pool : Pool) (c : Resource) (probes : trace)
                  (x : option error) (e : error) :
    forallb database_call probes = true ->
    provider_run X
      (provisioning pool c ++ probes ++ [EvResourceClose c x; EvFatal e])
      (Fatal e)
| run_bootstrap_failed (pool : Pool) (c : Resource) (probes conn : trace)
                       (db : sqlDB) (e : error) :
    forallb database_call probes = true ->
    connect_run (dsn (test_config X c)) conn (db, Some e) ->
    provider_run X
      (provisioning pool c ++ probes ++ conn ++ [EvFatal e])
      (Fatal e)
| run_ready (pool : Pool) (c : Resource) (probes conn : trace) (db : sqlDB) :
    forallb database_call probes = true ->
    connect_run (dsn (test_config X c)) conn (db, None) ->
    provider_run X
      (provisioning pool c ++ probes ++ conn)
      (Returned {| DB := db; container := c |}).

(** The release on failure the specification asks of [Connect]: when a
    step fails, it returns no handle and the error of that step, and every
    handle it opened has been closed. *)
Definition releases_on_failure (X : Externals) (my : mysql) (h : trace) : Prop :=
  forall ev e,
    In ev (calls_of (Connect X my) h) -> error_of ev = Some e ->
    fst (Connect X my h) = (nilDB, Some e) /\
    forall db, In db (opened (calls_of (Connect X my) h)) ->
               closed_before db (calls_of (Connect X my) h) = true.

(** An outside world in which the database is up but a migration fails,
    and one in which the database never answers the ping. *)
Definition migration_fails : Externals :=
  scripted None (Some (Err "Error 1064: You have an error in your SQL syntax")).

Definition database_down : Externals :=
  scripted (Some (Err "dial tcp: connection refused")) None.

(** The configuration and the test resource used in the examples. *)
Definition example_config : mysql :=
  mysqlConnection NopLogger "moov" "secret" "tcp(localhost:3306)" "ofac".

Definition example_resource : TestMySQLDB :=
  {| DB := DBHandle 8; container := ContainerHandle 4 |}.

(** A schema for the examples: the statements executed so far, every
    statement succeeding except ["syntax error"]. *)
Definition example_exec (q : string) (s : list string) : list string * option error :=
  if String.eqb q "syntax error"
  then (s, Some (Err "Error 1064: You have an error in your SQL syntax"))
  else (s ++ [q], None).

Definition example_registry : migrator.Migrator :=
  {| migrator.steps :=
       [ execsql "create_table_a" "create table if not exists a(id integer);";
         execsql "create_table_b" "syntax error";
         execsql "add_column_to_a" "alter table a add column n integer;" ] |}.

Definition working_registry : migrator.Migrator :=
  {| migrator.steps :=
       [ execsql "create_table_a" "create table if not exists a(id integer);";
         execsql "create_table_b" "create table if not exists b(id integer);";
         execsql "add_column_to_a" "alter table a add column n integer;" ] |}.

(** A database on which [Migrate] never ran. *)
Definition fresh_database : migrator.Database (list string) :=
  migrator.Build_Database [] None.

(** Two Steps of a list share an id. *)
Definition shares_id (l : list migrator.Step) : Prop :=
  exists i j s1 s2,
    i <> j /\ nth_error l i = Some s1 /\ nth_error l j = Some s2
    /\ migrator.id s1 = migrator.id s2.

(** The handles on which a trace calls [Close], in the order of the
    calls, whatever the calls answered. *)
Fixpoint closed (t : trace) : list sqlDB :=
  match t with
  | [] => []
  | EvDBClose db _ :: t' => db :: closed t'
  | _ :: t' => closed t'
  end.

(** The calls [Connect] can make. *)
Definition connect_call (ev : event) : bool :=
  match ev with
  | EvOpen _ _ _ | EvPing _ _ | EvMigrate _ _ => true
  | _ => false
  end.

(** The data source name the readiness probe opens. *)
Definition probe_dsn (X : Externals) (resource : Resource) : string :=
  fmt.Sprintf "moov:secret@tcp(localhost:%s)/ofac"
              [Resource_GetPort X resource "3306/tcp"].

(** The character [c] occurs in the string [s]. *)
Fixpoint occurs (c : ascii) (s : string) : bool :=
  match s with
  | EmptyString => false
  | String c' rest => Ascii.eqb c' c || occurs c rest
  end.

(** The value of a variable among the [NAME=value] items of a container
    environment. *)
Fixpoint getenv (name : string) (env : list string) : option string :=
  match env with
  | [] => None
  | item :: rest =>
      if String.eqb (fst (parse_param item)) name
      then Some (snd (parse_param item))
      else getenv name rest
  end.

(** An outside world in which the tests run with the short flag, and one
    without docker. *)
Definition short_mode : Externals :=
  {| ext_Open := ext_Open (scripted None None);
     ext_Ping := ext_Ping (scripted None None);
     ext_Migrate := ext_Migrate (scripted None None);
     ext_DBClose := ext_DBClose (scripted None None);
     ext_ResourceClose := ext_ResourceClose (scripted None None);
     ext_Short := fun _ => true;
     ext_DockerEnabled := ext_DockerEnabled (scripted None None);
     ext_NewPool := ext_NewPool (scripted None None);
     ext_RunWithOptions := ext_RunWithOptions (scripted None None);
     ext_GetPort := ext_GetPort (scripted None None);
     ext_RetryBudget := ext_RetryBudget (scripted None None) |}.

Definition no_docker : Externals :=
  {| ext_Open := ext_Open (scripted None None);
     ext_Ping := ext_Ping (scripted None None);
     ext_Migrate := ext_Migrate (scripted None None);
     ext_DBClose := ext_DBClose (scripted None None);
     ext_ResourceClose := ext_ResourceClose (scripted None None);
     ext_Short := fun _ => false;
     ext_DockerEnabled := fun _ => false;
     ext_NewPool := ext_NewPool (scripted None None);
     ext_RunWithOptions := ext_RunWithOptions (scripted None None);
     ext_GetPort := ext_GetPort (scripted None None);
     ext_RetryBudget := ext_RetryBudget (scripted None None) |}.

(** The containers on which a trace calls [Close] and the call answers
    without error. *)
Fixpoint released (t : trace) : list Resource :=
  match t with
  | [] => []
  | EvResourceClose c None :: t' => c :: released t'
  | _ :: t' => released t'
  end.

(** The containers a trace starts and does not release: no call closes
    them, or the calls that do answer with an error. *)
Definition still_running (t : trace) : list Resource :=
  filter (fun c => negb (existsb (Resource_eqb c) (released t))) (started t).

(** What the outside world answers along the path of [Connect] started
    after the history [h]: to the open, then to the ping of the handle
    opened, then to its migration, each after the history the calls
    before it leave. *)
Definition open_answer (X : Externals) (my : mysql) (h : trace) : sqlDB * option error :=
  ext_Open X h "mysql" (dsn my).

Definition after_open (X : Externals) (my : mysql) (h : trace) : trace :=
  record h (EvOpen "mysql" (dsn my) (open_answer X my h)).

Definition ping_answer (X : Externals) (my : mysql) (h : trace) : option error :=
  ext_Ping X (after_open X my h) (fst (open_answer X my h)).

Definition after_ping (X : Externals) (my : mysql) (h : trace) : trace :=
  record (after_open X my h)
         (EvPing (fst (open_answer X my h)) (ping_answer X my h)).

Definition migrate_answer (X : Externals) (my : mysql) (h : trace) : option error :=
  ext_Migrate X (after_ping X my h) (fst (open_answer X my h)).

(** A step of [Connect] fails with the error [e]: the open does, or the
    ping after the open succeeded, or the migration after both did. *)
Definition step_fails (X : Externals) (my : mysql) (h : trace) (e : error) : Prop :=
  snd (open_answer X my h) = Some e
  \/ (snd (open_answer X my h) = None /\ ping_answer X my h = Some e)
  \/ (snd (open_answer X my h) = None /\ ping_answer X my h = None
      /\ migrate_answer X my h = Some e).

(** The integrity the specification asks of construction: no Registry
    that [New] constructs holds two Steps with the same id. *)
Definition registry_integrity : Prop :=
  forall migrations : list migrator.Step,
    ~ shares_id (migrator.steps (migrator.New migrations)).

(** * Properties *)

(** ** The connection string *)

(** C8: for every user, password, address and database name, the
    connection string is [user:pass@address/database?options], and the
    options, read as [key=value] pairs, are exactly the five fixed
    defaults of the specification (in another order): timeout=30s,
    tls=false, charset=utf8mb4, sql_mode=ALLOW_INVALID_DATES and
    parseTime=true. *)
Theorem mysqlConnection_defaults :
  forall (lg : Logger) (user pass address database : string),
    dsn (mysqlConnection lg user pass address database)
    = (user ++ ":" ++ pass ++ "@" ++ address ++ "/" ++ database
       ++ "?" ++ mysqlOptions)%string
    /\ Permutation (parse_params mysqlOptions) spec_defaults.
Proof.
  intros lg user pass address database.
  split; [reflexivity|].
  assert (E : parse_params mysqlOptions
              = [ ("timeout", "30s"); ("tls", "false"); ("charset", "utf8mb4");
                  ("parseTime", "true"); ("sql_mode", "ALLOW_INVALID_DATES") ]%string)
    by reflexivity.
  rewrite E. unfold spec_defaults.
  do 3 apply perm_skip. apply perm_swap.
Qed.

(** ** Connect *)

Lemma calls_of_app {A : Type} (m : M A) (h new : trace) :
  snd (m h) = (h ++ new)%list -> calls_of m h = new.
Proof.
  intros E. unfold calls_of. rewrite E.
  rewrite skipn_app, skipn_all, Nat.sub_diag. reflexivity.
Qed.

(** Every run of [Connect] is one of the four of [connect_run]: what it
    calls, in which order, and what it returns. *)
Lemma Connect_run (X : Externals) (my : mysql) (h : trace) :
  exists calls,
    snd (Connect X my h) = h ++ calls
    /\ connect_run (dsn my) calls (fst (Connect X my h)).
Proof.
  unfold Connect, bind, sql_Open, DB_Ping, mysqlMigrator_Migrate, ret, record.
  destruct (ext_Open X h "mysql" (dsn my)) as [db [e|]].
  { eexists. split; [reflexivity|]. constructor. }
  destruct (ext_Ping X _ db) as [e|].
  { eexists. rewrite <- !app_assoc. split; [reflexivity|]. constructor. }
  destruct (ext_Migrate X _ db) as [e|];
    eexists; rewrite <- !app_assoc; (split; [reflexivity|]); constructor.
Qed.

(** [Connect] as a function of what the outside world answers. *)
Lemma Connect_eval (X : Externals) (my : mysql) (h : trace) :
  Connect X my h
  = match snd (open_answer X my h) with
    | Some e => ((nilDB, Some e), after_open X my h)
    | None =>
        match ping_answer X my h with
        | Some e => ((nilDB, Some e), after_ping X my h)
        | None =>
            match migrate_answer X my h with
            | Some e =>
                ((nilDB, Some e),
                 record (after_ping X my h)
                        (EvMigrate (fst (open_answer X my h)) (Some e)))
            | None =>
                ((fst (open_answer X my h), None),
                 record (after_ping X my h)
                        (EvMigrate (fst (open_answer X my h)) None))
            end
        end
    end.
Proof.
  unfold migrate_answer, after_ping, ping_answer, after_open, open_answer.
  unfold Connect, bind, sql_Open, DB_Ping, mysqlMigrator_Migrate, ret.
  destruct (ext_Open X h "mysql" (dsn my)) as [db [e|]]; cbn [fst snd].
  - reflexivity.
  - destruct (ext_Ping X _ db) as [e|]; [reflexivity|].
    destruct (ext_Migrate X _ db) as [e|]; reflexivity.
Qed.

(** C4: [Connect] opens a handle with the configured connection string,
    then pings that handle, then migrates it, each call being answered by
    the outside world after the calls before it.  When the open answers
    an error, nothing else is called; when the ping does, the migration is
    not called; in both cases, and when the migration answers an error,
    nil and that error are returned.  The handle opened is returned only
    when all three answered without error. *)
Theorem Connect_order :
  forall (X : Externals) (my : mysql) (h : trace),
    let o := open_answer X my h in
    let db := fst o in
    let p := ping_answer X my h in
    let m := migrate_answer X my h in
    (forall e, snd o = Some e ->
       calls_of (Connect X my) h = [EvOpen "mysql" (dsn my) o]
       /\ fst (Connect X my h) = (nilDB, Some e))
    /\ (forall e, snd o = None -> p = Some e ->
          calls_of (Connect X my) h = [EvOpen "mysql" (dsn my) o; EvPing db p]
          /\ fst (Connect X my h) = (nilDB, Some e))
    /\ (forall e, snd o = None -> p = None -> m = Some e ->
          calls_of (Connect X my) h
          = [EvOpen "mysql" (dsn my) o; EvPing db p; EvMigrate db m]
          /\ fst (Connect X my h) = (nilDB, Some e))
    /\ (snd o = None -> p = None -> m = None ->
          calls_of (Connect X my) h
          = [EvOpen "mysql" (dsn my) o; EvPing db p; EvMigrate db m]
          /\ fst (Connect X my h) = (db, None)).
Proof.
  intros X my h o db p m.
  repeat split; intros; try apply calls_of_app; rewrite Connect_eval;
    fold o p m; repeat match goal with H : _ = _ |- _ => rewrite H end;
    cbn [fst snd]; unfold after_ping, after_open, record; fold o p db;
    repeat match goal with H : _ = _ |- _ => rewrite H end;
    rewrite <- ?app_assoc; reflexivity.
Qed.

Lemma Connect_order_witness :
  calls_of (Connect database_down example_config) []
  = [EvOpen "mysql" (dsn example_config) (DBHandle 1, None);
     EvPing (DBHandle 1) (Some (Err "dial tcp: connection refused"))]
  /\ fst (Connect (scripted None None) example_config [])
     = (DBHandle 1, None).
Proof.
  split.
  - destruct (Connect_order database_down example_config []) as (_ & Hping & _).
    destruct (Hping (Err "dial tcp: connection refused") eq_refl eq_refl)
      as [Hcalls _].
    exact Hcalls.
  - destruct (Connect_order (scripted None None) example_config [])
      as (_ & _ & _ & Hdone).
    destruct (Hdone eq_refl eq_refl eq_refl) as [_ Hres].
    exact Hres.
Defined.

(** C3, as the specification states it, fails: with a database that does
    not answer the ping, [Connect] returns the error and leaves the handle
    it opened unclosed. *)
Lemma Connect_does_not_release :
  ~ releases_on_failure database_down example_config [].
Proof.
  intros H.
  destruct (H (EvPing (DBHandle 1) (Some (Err "dial tcp: connection refused")))
              (Err "dial tcp: connection refused")) as [_ Hclosed].
  - vm_compute. right; left. reflexivity.
  - reflexivity.
  - specialize (Hclosed (DBHandle 1)).
    vm_compute in Hclosed.
    assert (F : false = true) by (apply Hclosed; left; reflexivity).
    discriminate F.
Qed.

(** C3, amended: if any step of [Connect] fails, that is, if the outside
    world answers the open with an error, or the ping after a successful
    open, or the migration after both, [Connect] returns no handle and
    returns that error. *)
Theorem Connect_failure_no_handle :
  forall (X : Externals) (my : mysql) (h : trace) (e : error),
    step_fails X my h e ->
    fst (Connect X my h) = (nilDB, Some e).
Proof.
  intros X my h e Hfail.
  rewrite Connect_eval.
  destruct Hfail as [Ho|[[Ho Hp]|[Ho [Hp Hm]]]].
  - rewrite Ho. reflexivity.
  - rewrite Ho, Hp. reflexivity.
  - rewrite Ho, Hp, Hm. reflexivity.
Qed.

Lemma Connect_failure_no_handle_witness :
  step_fails database_down example_config [] (Err "dial tcp: connection refused")
  /\ fst (Connect database_down example_config [])
     = (nilDB, Some (Err "dial tcp: connection refused")).
Proof.
  assert (H : step_fails database_down example_config []
                (Err "dial tcp: connection refused")).
  { right; left. split; reflexivity. }
  split; [exact H|].
  apply (Connect_failure_no_handle database_down example_config []). exact H.
Defined.

(** [Connect] closes nothing, whatever happens. *)
Lemma Connect_never_closes (X : Externals) (my : mysql) (h : trace) (db : sqlDB) :
  closed_before db (calls_of (Connect X my) h) = false.
Proof.
  destruct (Connect_run X my h) as (calls & Es & Hrun).
  rewrite (calls_of_app _ _ _ Es).
  destruct Hrun; reflexivity.
Qed.

(** ** Close *)

Lemma sqlDB_eqb_refl (db : sqlDB) : sqlDB_eqb db db = true.
Proof. destruct db; simpl; auto using Nat.eqb_refl. Qed.

Lemma Resource_eqb_refl (c : Resource) : Resource_eqb c c = true.
Proof. destruct c; simpl; auto using Nat.eqb_refl. Qed.

(** The two calls of [Close], with the answers of the outside world. *)
Lemma Close_run (X : Externals) (r : TestMySQLDB) (h : trace) :
  let x := ext_ResourceClose X h (container r) in
  let y := ext_DBClose X (h ++ [EvResourceClose (container r) x]) (DB r) in
  Close X r h = (y, h ++ [EvResourceClose (container r) x; EvDBClose (DB r) y]).
Proof.
  unfold Close, bind, Resource_Close, DB_Close, record. simpl.
  rewrite <- app_assoc. reflexivity.
Qed.

(** C6, as the specification states it, fails: on the example resource
    the handle is not closed before the instance. *)
Lemma Close_handle_not_first :
  handle_before_instance example_resource
    (calls_of (Close (scripted None None) example_resource) []) <> true.
Proof. vm_compute. discriminate. Qed.

(** C6, amended: releasing the test resource tears down its two parts in
    the order of their acquisition, the provisioned instance first and the
    connection handle second. *)
Theorem Close_order :
  forall (X : Externals) (r : TestMySQLDB) (h : trace),
    (exists x y, calls_of (Close X r) h
                 = [EvResourceClose (container r) x; EvDBClose (DB r) y])
    /\ instance_before_handle r (calls_of (Close X r) h) = true.
Proof.
  intros X r h.
  pose proof (Close_run X r h) as E. simpl in E.
  assert (Ec : calls_of (Close X r) h
               = [EvResourceClose (container r) (ext_ResourceClose X h (container r));
                  EvDBClose (DB r)
                    (ext_DBClose X
                       (h ++ [EvResourceClose (container r)
                                (ext_ResourceClose X h (container r))]) (DB r))]).
  { apply calls_of_app. rewrite E. reflexivity. }
  split.
  - eauto.
  - rewrite Ec. unfold instance_before_handle. simpl.
    rewrite Resource_eqb_refl, sqlDB_eqb_refl. reflexivity.
Qed.

(** C10: [Close] returns exactly what closing the connection handle
    answered; what closing the container answered, error or not, is not
    part of the result. *)
Theorem Close_returns_handle_error :
  forall (X : Externals) (r : TestMySQLDB) (h : trace),
    exists x : option error,
      snd (Close X r h)
      = h ++ [EvResourceClose (container r) x;
              EvDBClose (DB r) (fst (Close X r h))]
      /\ fst (Close X r h)
         = ext_DBClose X (record h (EvResourceClose (container r) x)) (DB r).
Proof.
  intros X r h.
  exists (ext_ResourceClose X h (container r)).
  pose proof (Close_run X r h) as E. simpl in E.
  rewrite E. split; reflexivity.
Qed.

(** An error of the container teardown is dropped: on a second teardown
    the container is gone and its [Close] fails, yet the teardown
    returns nil. *)
Example Close_drops_container_error :
  let h := snd (Close (scripted None None) example_resource []) in
  calls_of (Close (scripted None None) example_resource) h
  = [EvResourceClose (ContainerHandle 4) (Some (Err "No such container"));
     EvDBClose (DBHandle 8) None]
  /\ fst (Close (scripted None None) example_resource h) = None.
Proof. split; reflexivity. Qed.

(** ** CreateTestMySQLDB *)

(** When the readiness probe never succeeds, the container is closed
    before the test is failed. *)
Example CreateTestMySQLDB_probe_failure_releases :
  let run := CreateTestMySQLDB database_down [] in
  fst run = Fatal (Err "dial tcp: connection refused")
  /\ started (snd run) = [ContainerHandle 4]
  /\ removed_before (ContainerHandle 4) (snd run) = true
  /\ skipn 13 (snd run) = [EvResourceClose (ContainerHandle 4) None;
                           EvFatal (Err "dial tcp: connection refused")].
Proof. repeat split. Qed.

Lemma probe_trace (X : Externals) (c : Resource) (h : trace) :
  exists evs, snd (probe X c h) = h ++ evs /\ forallb database_call evs = true.
Proof.
  unfold probe, bind, sql_Open, DB_Ping, DB_Close, ret, record.
  destruct (ext_Open X h _ _) as [db [e|]]; simpl.
  - eexists. split; reflexivity.
  - eexists. rewrite <- !app_assoc. split; reflexivity.
Qed.

Lemma Pool_Retry_trace (X : Externals) (c : Resource) (n : nat) :
  forall h, exists evs,
    snd (Pool_Retry n (probe X c) h) = h ++ evs
    /\ forallb database_call evs = true.
Proof.
  induction n as [|n IH]; intros h; simpl; unfold bind;
    destruct (probe_trace X c h) as (evs & E & F);
    destruct (probe X c h) as [[e|] h1]; simpl in *; subst h1; unfold ret; simpl.
  - exists evs; auto.
  - exists evs; auto.
  - destruct (IH (h ++ evs)) as (evs' & E' & F').
    exists (evs ++ evs'). rewrite E', app_assoc, forallb_app, F, F'. auto.
  - exists evs; auto.
Qed.

(** Every run of [CreateTestMySQLDB] is one of the seven of [provider_run]. *)
Lemma CreateTestMySQLDB_runs (X : Externals) (h : trace) :
  exists calls,
    snd (CreateTestMySQLDB X h) = h ++ calls
    /\ provider_run X calls (fst (CreateTestMySQLDB X h)).
Proof.
  unfold CreateTestMySQLDB.
  unfold bindT, lift, testing_Short, docker_Enabled, dockertest_NewPool,
    Pool_RunWithOptions, Resource_Close, t_Skip, t_Fatal, retT, record.
  destruct (ext_Short X h) eqn:ES.
  { eexists. rewrite <- !app_assoc. split; [reflexivity|]. constructor. }
  destruct (ext_DockerEnabled X _) eqn:ED; cbn [negb].
  2:{ eexists. rewrite <- !app_assoc. split; [reflexivity|]. constructor. }
  destruct (ext_NewPool X _ _) as [pool [e|]] eqn:EN.
  { eexists. rewrite <- !app_assoc. split; [reflexivity|]. constructor. }
  destruct (ext_RunWithOptions X _ _ _) as [c [e|]] eqn:ER.
  { eexists. rewrite <- !app_assoc. split; [reflexivity|]. constructor. }
  change (mysqlConnection NopLogger "moov" "secret" _ "ofac")
    with (test_config X c).
  match goal with
  | |- context [Pool_Retry ?n ?op ?h0] =>
      destruct (Pool_Retry_trace X c n h0) as (probes & EP & FP);
      destruct (Pool_Retry n op h0) as [rerr h5]
  end.
  cbn [snd] in EP. subst h5.
  destruct rerr as [e|].
  { exists (provisioning pool c ++ probes ++
            [EvResourceClose c
               (ext_ResourceClose X
                  ((((((h ++ [EvShort false]) ++ [EvDockerEnabled true])
                        ++ [EvNewPool "" (pool, None)])
                       ++ [EvRunWithOptions pool testRunOptions (c, None)])
                      ++ probes)) c); EvFatal e]).
    split.
    - cbn [fst snd]. unfold provisioning. rewrite <- !app_assoc. reflexivity.
    - apply run_unreachable. exact FP. }
  match goal with
  | |- context [Connect X ?my ?h0] =>
      destruct (Connect_run X my h0) as (conn & EC & RC);
      destruct (Connect X my h0) as [[db err] h6]
  end.
  cbn [fst snd] in EC, RC. subst h6.
  destruct err as [e|].
  - exists (provisioning pool c ++ probes ++ conn ++ [EvFatal e]). split.
    + cbn [fst snd]. unfold provisioning. rewrite <- !app_assoc. reflexivity.
    + apply run_bootstrap_failed with (db := db); assumption.
  - exists (provisioning pool c ++ probes ++ conn). split.
    + cbn [fst snd]. unfold provisioning. rewrite <- !app_assoc. reflexivity.
    + apply run_ready; assumption.
Qed.

Lemma started_app (t1 t2 : trace) : started (t1 ++ t2) = started t1 ++ started t2.
Proof.
  induction t1 as [|ev t1 IH]; simpl; [reflexivity|].
  destruct ev as [| | | | | | | |p o [c [e|]]| |]; simpl; rewrite IH; reflexivity.
Qed.

Lemma removed_before_app (c : Resource) (t1 t2 : trace) :
  removed_before c (t1 ++ t2) = removed_before c t1 || removed_before c t2.
Proof. unfold removed_before. apply existsb_app. Qed.

Lemma database_calls_start_nothing (t : trace) :
  forallb database_call t = true -> started t = [].
Proof.
  induction t as [|ev t IH]; simpl; [reflexivity|].
  intros H. apply Bool.andb_true_iff in H. destruct H as [Hev Ht].
  destruct ev; simpl in Hev; try discriminate Hev; apply IH; exact Ht.
Qed.

Lemma database_calls_remove_nothing (c : Resource) (t : trace) :
  forallb database_call t = true -> removed_before c t = false.
Proof.
  induction t as [|ev t IH]; simpl; [reflexivity|].
  intros H. apply Bool.andb_true_iff in H. destruct H as [Hev Ht].
  destruct ev; simpl in Hev; try discriminate Hev; apply IH; exact Ht.
Qed.

Lemma connect_run_database_calls (d : string) (conn : trace) (res : sqlDB * option error) :
  connect_run d conn res -> forallb database_call conn = true.
Proof. intros H. destruct H; reflexivity. Qed.

(** A failed [Connect] ends with the call that failed. *)
Lemma connect_run_failed_last (d : string) (conn : trace) (db : sqlDB) (e : error) :
  connect_run d conn (db, Some e) ->
  exists t ev, conn = t ++ [ev] /\ database_call ev = true /\ error_of ev = Some e.
Proof.
  intros H. inversion H; subst.
  - exists [], (EvOpen "mysql" d (db0, Some e)). repeat split.
  - exists [EvOpen "mysql" d (db0, None)], (EvPing db0 (Some e)). repeat split.
  - exists [EvOpen "mysql" d (db0, None); EvPing db0 None], (EvMigrate db0 (Some e)).
    repeat split.
Qed.

Lemma released_app (t1 t2 : trace) : released (t1 ++ t2) = released t1 ++ released t2.
Proof.
  induction t1 as [|ev t1 IH]; simpl; [reflexivity|].
  destruct ev as [| | | |c [e|]| | | | | |]; simpl; rewrite IH; reflexivity.
Qed.

Lemma database_calls_release_nothing (t : trace) :
  forallb database_call t = true -> released t = [].
Proof.
  induction t as [|ev t IH]; simpl; [reflexivity|].
  intros H. apply Bool.andb_true_iff in H. destruct H as [Hev Ht].
  destruct ev; simpl in Hev; try discriminate Hev; apply IH; exact Ht.
Qed.

(** X9: what a failing run of [CreateTestMySQLDB] leaves behind.  The
    test is failed right after the call that decides it, in one of three
    ways.  The pool or the container could not be created: that call
    answered the error and no container was started.  The probes failed:
    the call before [t.Fatal] closes the container that was started, and
    its answer is dropped; the container is released when that call
    answered without error and is still running when it answered an
    error.  [Connect] failed: the call before [t.Fatal] is a database call
    that answered the error, no call closes the container that was
    started, and it is still running. *)
Lemma CreateTestMySQLDB_failure_release (X : Externals) (h : trace) (e : error) :
  fst (CreateTestMySQLDB X h) = Fatal e ->
  exists calls t ev,
    snd (CreateTestMySQLDB X h) = h ++ calls
    /\ calls = t ++ [ev; EvFatal e]
    /\ ((database_call ev = false /\ error_of ev = Some e /\ started calls = [])
        \/ (exists c x,
               ev = EvResourceClose c x
               /\ started calls = [c]
               /\ (x = None -> still_running calls = [])
               /\ (x <> None -> still_running calls = [c]))
        \/ (database_call ev = true /\ error_of ev = Some e
            /\ exists c, started calls = [c]
                         /\ removed_before c calls = false
                         /\ still_running calls = [c])).
Proof.
  intros Hfatal.
  destruct (CreateTestMySQLDB_runs X h) as (calls & Hcalls & Hrun).
  exists calls.
  rewrite Hfatal in Hrun. clear Hfatal.
  inversion Hrun as [| |pool e0|pool c e0|pool c probes x e0 FP
                     |pool c probes conn db e0 FP HC|]; subst.
  - exists [EvShort false; EvDockerEnabled true], (EvNewPool "" (pool, Some e)).
    split; [exact Hcalls|]. split; [reflexivity|]. left. repeat split.
  - exists [EvShort false; EvDockerEnabled true; EvNewPool "" (pool, None)],
      (EvRunWithOptions pool testRunOptions (c, Some e)).
    split; [exact Hcalls|]. split; [reflexivity|]. left. repeat split.
  - exists (provisioning pool c ++ probes), (EvResourceClose c x).
    split; [exact Hcalls|]. split; [rewrite <- app_assoc; reflexivity|].
    right; left. exists c, x. split; [reflexivity|].
    assert (Hs : started (provisioning pool c ++ probes
                          ++ [EvResourceClose c x; EvFatal e]) = [c]).
    { rewrite !started_app, (database_calls_start_nothing probes FP).
      reflexivity. }
    split; [exact Hs|].
    unfold still_running. rewrite Hs, !released_app.
    rewrite (database_calls_release_nothing probes FP). simpl.
    split.
    + intros ->. simpl. rewrite Resource_eqb_refl. reflexivity.
    + intros Hx. destruct x as [ex|]; [reflexivity|]. exfalso. apply Hx. reflexivity.
  - destruct (connect_run_failed_last _ _ _ _ HC) as (t & ev & -> & Hd & He).
    exists (provisioning pool c ++ probes ++ t), ev.
    split; [exact Hcalls|]. split; [rewrite <- !app_assoc; reflexivity|].
    right; right. split; [exact Hd|]. split; [exact He|]. exists c.
    pose proof (connect_run_database_calls _ _ _ HC) as FC.
    assert (Hs : started (provisioning pool c ++ probes ++ (t ++ [ev])
                          ++ [EvFatal e]) = [c]).
    { rewrite (started_app (provisioning pool c)), (started_app probes),
        (started_app (t ++ [ev])).
      rewrite (database_calls_start_nothing probes FP).
      rewrite (database_calls_start_nothing _ FC). reflexivity. }
    split; [exact Hs|]. split.
    + rewrite (removed_before_app c (provisioning pool c)),
        (removed_before_app c probes), (removed_before_app c (t ++ [ev])).
      rewrite (database_calls_remove_nothing c probes FP).
      rewrite (database_calls_remove_nothing c _ FC). reflexivity.
    + unfold still_running. rewrite Hs.
      rewrite (released_app (provisioning pool c)), (released_app probes),
        (released_app (t ++ [ev])).
      rewrite (database_calls_release_nothing probes FP).
      rewrite (database_calls_release_nothing _ FC). reflexivity.
Qed.

(** C7, at an input where it fails: the container starts and answers the
    probe, then the migration run by [Connect] fails.  The test is failed
    with that error while the container it started is still running: no
    call closes it. *)
Theorem CreateTestMySQLDB_bootstrap_failure_keeps_instance :
  let run := CreateTestMySQLDB migration_fails [] in
  fst run = Fatal (Err "Error 1064: You have an error in your SQL syntax")
  /\ started (snd run) = [ContainerHandle 4]
  /\ removed_before (ContainerHandle 4) (snd run) = false
  /\ last (snd run) (EvShort false)
     = EvFatal (Err "Error 1064: You have an error in your SQL syntax").
Proof. repeat split. Qed.

(** ** The migration registry and runner *)

Section RunnerFacts.

Import migrator.

Lemma mem_In (i : string) (l : list string) : mem i l = true <-> In i l.
Proof.
  unfold mem. rewrite existsb_exists. split.
  - intros (x & Hx & E). apply String.eqb_eq in E. subst x. exact Hx.
  - intros H. exists i. split; [exact H|apply String.eqb_refl].
Qed.

Lemma mem_false (i : string) (l : list string) : mem i l = false <-> ~ In i l.
Proof.
  rewrite <- mem_In. destruct (mem i l); split; intros H; try reflexivity;
    try discriminate; try (intros F; discriminate F).
  exfalso. apply H. reflexivity.
Qed.

Lemma mem_app (i : string) (l1 l2 : list string) :
  mem i (l1 ++ l2) = mem i l1 || mem i l2.
Proof. apply existsb_app. Qed.

Lemma unique_NoDup (l : list string) : unique l = true <-> NoDup l.
Proof.
  induction l as [|i l IH]; simpl.
  - split; [constructor|reflexivity].
  - rewrite Bool.andb_true_iff, Bool.negb_true_iff, mem_false, IH.
    rewrite NoDup_cons_iff. reflexivity.
Qed.

(** In a list without repetition, what lies around an element differs
    from it, and the two sides share nothing. *)
Lemma NoDup_middle {A : Type} (l1 l2 : list A) (a : A) :
  NoDup (l1 ++ a :: l2) ->
  ~ In a l1 /\ ~ In a l2 /\ (forall x, In x l2 -> ~ In x l1).
Proof.
  intros H. pose proof (NoDup_remove _ _ _ H) as [Hnd Hnot].
  split; [|split].
  - intros F. apply Hnot, in_or_app. left. exact F.
  - intros F. apply Hnot, in_or_app. right. exact F.
  - clear Hnot H. induction l1 as [|b l1 IH]; intros x Hx F.
    + exact F.
    + simpl in Hnd. apply NoDup_cons_iff in Hnd. destruct Hnd as [Hb Hnd].
      destruct F as [F|F].
      * subst b. apply Hb, in_or_app. right. exact Hx.
      * exact (IH Hnd x Hx F).
Qed.

Lemma In_firstn {A : Type} (n : nat) (l : list A) (x : A) :
  In x (firstn n l) -> In x l.
Proof.
  intros H. rewrite <- (firstn_skipn n l). apply in_or_app. left. exact H.
Qed.

(** A list with two Steps of the same id has a repeated id. *)
Lemma shares_id_not_NoDup (l : list Step) : shares_id l -> ~ NoDup (ids l).
Proof.
  intros (i & j & s1 & s2 & Hij & H1 & H2 & E) Hnd.
  apply Hij.
  apply (proj1 (NoDup_nth_error (ids l)) Hnd).
  - unfold ids. rewrite length_map. apply nth_error_Some. rewrite H1. discriminate.
  - unfold ids. rewrite !nth_error_map, H1, H2. simpl. rewrite E. reflexivity.
Qed.



Variable Schema : Type.
Variable exec : string -> Schema -> Schema * option error.

(** [run] always leaves the Tracker table in place. *)
Lemma run_tracker (l : list Step) :
  forall k s applied,
    tracker (final (run exec k l s applied)) = Some (rows (final (run exec k l s applied))).
Proof.
  induction l as [|st rest IH]; intros k s applied; simpl.
  - reflexivity.
  - destruct (mem (id st) applied); [apply IH|].
    destruct (execute exec (statements st) s) as [s' [e|]]; simpl.
    + reflexivity.
    + apply IH.
Qed.

(** [run] only adds rows to the Tracker. *)
Lemma run_keeps (l : list Step) :
  forall k s applied i,
    mem i applied = true -> mem i (rows (final (run exec k l s applied))) = true.
Proof.
  induction l as [|st rest IH]; intros k s applied i Hi; simpl.
  - exact Hi.
  - destruct (mem (id st) applied); [apply IH; exact Hi|].
    destruct (execute exec (statements st) s) as [s' [e|]]; simpl.
    + exact Hi.
    + apply IH. rewrite mem_app, Hi. reflexivity.
Qed.

(** After a run without error every Step is in the Tracker. *)
Lemma run_success_recorded (l : list Step) :
  forall k s applied,
    result (run exec k l s applied) = None ->
    forall st, In st l -> mem (id st) (rows (final (run exec k l s applied))) = true.
Proof.
  induction l as [|st0 rest IH]; intros k s applied Hres st Hin.
  - destruct Hin.
  - simpl in *. destruct (mem (id st0) applied) eqn:Hm.
    + destruct Hin as [->|Hin].
      * apply run_keeps. exact Hm.
      * apply IH; assumption.
    + destruct (execute exec (statements st0) s) as [s' [e|]]; simpl in *.
      * discriminate Hres.
      * destruct Hin as [->|Hin].
        -- apply run_keeps. rewrite mem_app. simpl.
           rewrite String.eqb_refl. simpl. apply Bool.orb_true_r.
        -- apply IH; assumption.
Qed.

(** When every Step is in the Tracker, [run] attempts nothing and changes
    nothing. *)
Lemma run_nothing_pending (l : list Step) :
  forall k s applied,
    (forall st, In st l -> mem (id st) applied = true) ->
    run exec k l s applied
    = {| final := {| schema := s; tracker := Some applied |};
         attempts := [];
         result := None |}.
Proof.
  induction l as [|st rest IH]; intros k s applied Hall; simpl.
  - reflexivity.
  - rewrite (Hall st (or_introl eq_refl)).
    apply IH. intros st' Hin. apply Hall. right. exact Hin.
Qed.

(** C2: when [Migrate] has run to the end of the Registry, running it
    again on the same handle leaves the schema and the Tracker as they
    are, attempts no Step and reports no error. *)
Theorem Migrate_twice_noop :
  forall (m : Migrator) (db : Database Schema),
    result (Migrate exec m db) = None ->
    final (Migrate exec m (final (Migrate exec m db))) = final (Migrate exec m db)
    /\ attempts (Migrate exec m (final (Migrate exec m db))) = []
    /\ result (Migrate exec m (final (Migrate exec m db))) = None.
Proof.
  intros m db Hres.
  unfold migrator.Migrate in *.
  set (once := run exec 1 (steps m) (schema db) (rows db)) in *.
  rewrite (run_nothing_pending (steps m) 1 (schema (final once)) (rows (final once))).
  - simpl. repeat split.
    pose proof (run_tracker (steps m) 1 (schema db) (rows db)) as Ht.
    fold once in Ht. destruct (final once) as [sc tr]. simpl in *.
    rewrite Ht. reflexivity.
  - intros st Hin. apply run_success_recorded; assumption.
Qed.

(** Steps already in the Tracker are passed over. *)
Lemma run_skip (before rest : list Step) :
  forall k s applied,
    (forall b, In b before -> mem (id b) applied = true) ->
    run exec k (before ++ rest) s applied
    = run exec (k + length before) rest s applied.
Proof.
  induction before as [|b before IH]; intros k s applied Hall; simpl.
  - rewrite Nat.add_0_r. reflexivity.
  - rewrite (Hall b (or_introl eq_refl)).
    rewrite IH.
    + f_equal. lia.
    + intros b' Hin. apply Hall. right. exact Hin.
Qed.

(** The shape of a run that reports an error: the Registry splits around
    the failing Step; the attempts before it succeeded, it is the last one
    attempted; the Steps before it are in the Tracker, it is not; and the
    Tracker holds nothing beyond what it held and the Steps before it. *)
Lemma run_failure (l : list Step) :
  forall k s applied e,
    result (run exec k l s applied) = Some e ->
    exists before st after earlier,
      l = before ++ st :: after
      /\ attempts (run exec k l s applied)
         = earlier ++ [Attempt (k + length before) (id st) (Some e)]
      /\ Forall (fun a => position_of a < k + length before
                          /\ result_of a = None) earlier
      /\ (forall b, In b before ->
                    mem (id b) (rows (final (run exec k l s applied))) = true)
      /\ mem (id st) (rows (final (run exec k l s applied))) = false
      /\ (forall i, mem i (rows (final (run exec k l s applied))) = true ->
                    mem i applied = true \/ In i (ids before)).
Proof.
  induction l as [|st0 rest IH]; intros k s applied e Hres; simpl in *.
  - discriminate Hres.
  - destruct (mem (id st0) applied) eqn:Hm.
    + destruct (IH _ _ _ _ Hres)
        as (before & st & after & earlier & -> & Ha & Hf & Hb & Hst & Hrows).
      exists (st0 :: before), st, after, earlier. simpl.
      replace (k + S (length before)) with (S k + length before) by lia.
      repeat split; try assumption.
      * intros b [<-|Hin]; [apply run_keeps; exact Hm|apply Hb; exact Hin].
      * intros i Hi. destruct (Hrows i Hi) as [H|H]; auto.
    + destruct (execute exec (statements st0) s) as [s' [e0|]] eqn:Hx; simpl in *.
      * inversion Hres; subst e0.
        exists [], st0, rest, []. simpl. rewrite Nat.add_0_r.
        repeat split; try assumption; try apply Forall_nil.
        -- intros b [].
        -- intros i Hi. left. exact Hi.
      * destruct (IH _ _ _ _ Hres)
          as (before & st & after & earlier & -> & Ha & Hf & Hb & Hst & Hrows).
        exists (st0 :: before), st, after, (Attempt k (id st0) None :: earlier).
        simpl.
        replace (k + S (length before)) with (S k + length before) by lia.
        repeat split; try assumption.
        -- rewrite Ha. reflexivity.
        -- constructor; [simpl; split; [lia|reflexivity]|exact Hf].
        -- intros b [<-|Hin]; [|apply Hb; exact Hin].
           apply run_keeps. rewrite mem_app. simpl.
           rewrite String.eqb_refl. simpl. apply Bool.orb_true_r.
        -- intros i Hi. destruct (Hrows i Hi) as [H|H]; auto.
           rewrite mem_app in H. apply Bool.orb_true_iff in H.
           destruct H as [H|H]; auto.
           simpl in H. rewrite Bool.orb_false_r in H.
           apply String.eqb_eq in H. subst i. auto.
Qed.

(** A Tracker that holds a prefix of the Registry and lacks the Step at
    position [length before] holds only Steps before that position. *)
Lemma prefix_before (before after : list Step) (st : Step) (n : nat) (rws : list string) :
  rws = ids (firstn n (before ++ st :: after)) ->
  mem (id st) rws = false ->
  forall i, In i rws -> In i (ids before).
Proof.
  intros -> Hst i Hi.
  rewrite firstn_app in Hi. unfold ids in *. rewrite map_app in Hi.
  apply in_app_or in Hi. destruct Hi as [Hi|Hi].
  - apply in_map_iff in Hi. destruct Hi as (x & <- & Hx).
    apply in_map. apply (In_firstn _ _ _ Hx).
  - destruct (n - length before) as [|d] eqn:Hd; simpl in Hi; [destruct Hi|].
    exfalso. apply mem_false in Hst. apply Hst.
    rewrite firstn_app, map_app, Hd. simpl.
    apply in_or_app. right. left. reflexivity.
Qed.


(** On a database where [Migrate] never ran the Tracker is absent, which
    is the empty prefix. *)
Lemma applied_prefix_fresh (m : Migrator) (s : Schema) :
  applied_prefix m {| schema := s; tracker := None |}.
Proof. exists 0. reflexivity. Qed.

(** [run] extends a prefix of the Registry to a prefix of the Registry. *)
Lemma run_prefix (l : list Step) :
  forall done k s n,
    NoDup (ids (done ++ l)) ->
    length done <= n ->
    exists n',
      rows (final (run exec k l s (ids (firstn n (done ++ l)))))
      = ids (firstn n' (done ++ l)).
Proof.
  induction l as [|st rest IH]; intros done k s n Hnd Hn; simpl.
  - exists n. reflexivity.
  - destruct (mem (id st) (ids (firstn n (done ++ st :: rest)))) eqn:Hm.
    + assert (Hlt : length done < n).
      { destruct (Nat.eq_dec n (length done)) as [->|]; [|lia].
        exfalso. rewrite firstn_app, Nat.sub_diag, firstn_all, app_nil_r in Hm.
        apply mem_In in Hm. unfold ids in Hnd. rewrite map_app in Hnd.
        simpl in Hnd. apply NoDup_middle in Hnd. tauto. }
      specialize (IH (done ++ [st]) (S k) s n).
      rewrite <- app_assoc in IH. simpl in IH. apply IH; [exact Hnd|].
      rewrite length_app. simpl. lia.
    + assert (Heq : n = length done).
      { destruct (Nat.eq_dec n (length done)) as [->|]; [reflexivity|].
        exfalso. apply mem_false in Hm. apply Hm.
        rewrite firstn_app. unfold ids. rewrite map_app.
        apply in_or_app. right.
        destruct (n - length done) as [|d] eqn:Hd; [lia|]. simpl. left. reflexivity. }
      subst n.
      destruct (execute exec (statements st) s) as [s' [e|]]; simpl.
      * exists (length done). reflexivity.
      * specialize (IH (done ++ [st]) (S k) s' (S (length done))).
        rewrite <- app_assoc in IH. simpl in IH.
        replace (ids (firstn (length done) (done ++ st :: rest)) ++ [id st])
          with (ids (firstn (S (length done)) (done ++ st :: rest))).
        -- apply IH; [exact Hnd|]. rewrite length_app. simpl. lia.
        -- replace (S (length done)) with (length done + 1) by lia.
           rewrite firstn_app_2. simpl.
           rewrite firstn_app, Nat.sub_diag, firstn_all. simpl.
           unfold ids. rewrite !map_app, app_nil_r. reflexivity.
Qed.

(** Every run of [Migrate] keeps the Tracker a prefix of the Registry. *)
Lemma applied_prefix_Migrate (m : Migrator) (db : Database Schema) :
  unique (ids (steps m)) = true ->
  applied_prefix m db ->
  applied_prefix m (final (Migrate exec m db)).
Proof.
  intros Huniq (n & Hp).
  pose proof (proj1 (unique_NoDup _) Huniq) as Hnd.
  unfold applied_prefix, migrator.Migrate. rewrite Hp.
  apply (run_prefix (steps m) [] 1 (schema db) n); simpl; [exact Hnd|lia].
Qed.

End RunnerFacts.

(** ** The runner on examples *)


Lemma Migrate_twice_noop_witness :
  migrator.result (migrator.Migrate example_exec working_registry fresh_database) = None
  /\ migrator.attempts
       (migrator.Migrate example_exec working_registry
          (migrator.final
             (migrator.Migrate example_exec working_registry fresh_database)))
     = [].
Proof.
  split; [reflexivity|].
  apply (Migrate_twice_noop (list string) example_exec working_registry fresh_database).
  reflexivity.
Defined.

(** The three Steps of the working example on a fresh database: all are
    attempted in Registry order and recorded. *)
Example Migrate_working_registry :
  migrator.Migrate example_exec working_registry fresh_database
  = migrator.Build_report
      (migrator.Build_Database
         [ "create table if not exists a(id integer);";
           "create table if not exists b(id integer);";
           "alter table a add column n integer;" ]
         (Some ["create_table_a"; "create_table_b"; "add_column_to_a"]))
      [ migrator.Attempt 1 "create_table_a" None;
        migrator.Attempt 2 "create_table_b" None;
        migrator.Attempt 3 "add_column_to_a" None ]
      None.
Proof. reflexivity. Qed.

(** * More on the code *)

(** ** Connect: errors and calls *)

(** X1: the error of [Connect] is never made up.  When [Connect] returns
    an error, it returns no handle and a step failed with exactly this
    error: the outside world answered it to the open, to the ping or to
    the migration.  When it returns no error, the outside world answered
    all three without error and the handle returned is the one it
    answered to the open. *)
Theorem Connect_error_is_an_answer :
  forall (X : Externals) (my : mysql) (h : trace),
    match snd (fst (Connect X my h)) with
    | Some e =>
        fst (fst (Connect X my h)) = nilDB /\ step_fails X my h e
    | None =>
        snd (open_answer X my h) = None
        /\ ping_answer X my h = None
        /\ migrate_answer X my h = None
        /\ fst (fst (Connect X my h)) = fst (open_answer X my h)
    end.
Proof.
  intros X my h. unfold step_fails.
  rewrite Connect_eval.
  destruct (snd (open_answer X my h)) as [e|]; cbn [fst snd]; [auto|].
  destruct (ping_answer X my h) as [e|]; cbn [fst snd]; [auto|].
  destruct (migrate_answer X my h) as [e|]; cbn [fst snd]; auto 10.
Qed.

(** X2: whatever the outside world answers, [Connect] makes between one
    and three calls, all of them to open, ping or migrate: it closes no
    handle, starts no container and closes none, and never ends the
    test. *)
Theorem Connect_calls_bounded :
  forall (X : Externals) (my : mysql) (h : trace),
    1 <= length (calls_of (Connect X my) h) <= 3
    /\ forallb connect_call (calls_of (Connect X my) h) = true
    /\ closed (calls_of (Connect X my) h) = []
    /\ started (calls_of (Connect X my) h) = [].
Proof.
  intros X my h.
  destruct (Connect_run X my h) as (calls & Es & Hrun).
  rewrite (calls_of_app _ _ _ Es).
  destruct Hrun; simpl; repeat split; lia.
Qed.

(** ** The readiness probe *)


(** ** The connection string: what it determines *)

Lemma append_assoc (s1 s2 s3 : string) :
  ((s1 ++ s2) ++ s3 = s1 ++ (s2 ++ s3))%string.
Proof. induction s1 as [|c s1 IH]; simpl; [reflexivity|]. rewrite IH. reflexivity. Qed.

Lemma length_append (s1 s2 : string) :
  String.length (s1 ++ s2)%string = String.length s1 + String.length s2.
Proof. induction s1 as [|c s1 IH]; simpl; [reflexivity|]. rewrite IH. reflexivity. Qed.

(** Equal strings with a common end have equal beginnings. *)
Lemma append_cancel_r (s1 s2 t : string) :
  (s1 ++ t = s2 ++ t)%string -> s1 = s2.
Proof.
  revert s2. induction s1 as [|c s1 IH]; intros [|c2 s2] E; simpl in E.
  - reflexivity.
  - apply (f_equal String.length) in E. simpl in E.
    rewrite length_append in E. lia.
  - apply (f_equal String.length) in E. simpl in E.
    rewrite length_append in E. lia.
  - inversion E. f_equal. apply IH. assumption.
Qed.

(** Two strings cut at the first occurrence of a character agree on both
    sides of the cut. *)
Lemma split_at_first (c : ascii) (s1 s2 t1 t2 : string) :
  occurs c s1 = false -> occurs c s2 = false ->
  (s1 ++ String c t1 = s2 ++ String c t2)%string ->
  s1 = s2 /\ t1 = t2.
Proof.
  revert s2. induction s1 as [|a s1 IH]; intros [|b s2] H1 H2 E; simpl in *.
  - inversion E. auto.
  - inversion E; subst b. rewrite Ascii.eqb_refl in H2. discriminate H2.
  - inversion E; subst a. rewrite Ascii.eqb_refl in H1. discriminate H1.
  - inversion E; subst b.
    apply Bool.orb_false_iff in H1. apply Bool.orb_false_iff in H2.
    destruct (IH s2 (proj2 H1) (proj2 H2) H3) as [-> ->]. auto.
Qed.

(** The connection string, written out. *)
Lemma mysqlConnection_dsn (lg : Logger) (user pass address database : string) :
  dsn (mysqlConnection lg user pass address database)
  = (user ++ String ":" (pass ++ String "@" (address ++ String "/"
       (database ++ String "?" mysqlOptions))))%string.
Proof. reflexivity. Qed.

(** X3: the connection string determines the arguments it was built
    from, provided the user name holds no colon, the password no at-sign
    and the address no slash: two such configurations with the same
    connection string have the same user, password, address and database
    name. *)
Theorem mysqlConnection_injective :
  forall (lg1 lg2 : Logger) (u1 p1 a1 d1 u2 p2 a2 d2 : string),
    occurs ":" u1 = false -> occurs ":" u2 = false ->
    occurs "@" p1 = false -> occurs "@" p2 = false ->
    occurs "/" a1 = false -> occurs "/" a2 = false ->
    dsn (mysqlConnection lg1 u1 p1 a1 d1) = dsn (mysqlConnection lg2 u2 p2 a2 d2) ->
    u1 = u2 /\ p1 = p2 /\ a1 = a2 /\ d1 = d2.
Proof.
  intros lg1 lg2 u1 p1 a1 d1 u2 p2 a2 d2 Hu1 Hu2 Hp1 Hp2 Ha1 Ha2 E.
  rewrite !mysqlConnection_dsn in E.
  destruct (split_at_first _ _ _ _ _ Hu1 Hu2 E) as [-> E1].
  destruct (split_at_first _ _ _ _ _ Hp1 Hp2 E1) as [-> E2].
  destruct (split_at_first _ _ _ _ _ Ha1 Ha2 E2) as [-> E3].
  repeat split. exact (append_cancel_r _ _ _ E3).
Qed.

Lemma mysqlConnection_injective_witness :
  "moov" = "moov" /\ "secret" = "secret"
  /\ "tcp(localhost:3306)" = "tcp(localhost:3306)" /\ "ofac" = "ofac".
Proof.
  apply (mysqlConnection_injective NopLogger (KitLogger 1)
           "moov" "secret" "tcp(localhost:3306)" "ofac"
           "moov" "secret" "tcp(localhost:3306)" "ofac");
    reflexivity.
Defined.

(** X4: the arguments are copied as they are, nothing is escaped: a colon
    in the user name is read as the end of the user name.  A user name
    [u:p1] with password [p2] gives the same connection string as the user
    name [u] with password [p1:p2]. *)
Theorem mysqlConnection_colon_shift :
  forall (lg : Logger) (u p1 p2 address database : string),
    dsn (mysqlConnection lg (u ++ ":" ++ p1) p2 address database)
    = dsn (mysqlConnection lg u (p1 ++ ":" ++ p2) address database).
Proof.
  intros lg u p1 p2 address database.
  rewrite !mysqlConnection_dsn.
  rewrite !append_assoc. simpl. reflexivity.
Qed.

(** ** CreateTestMySQLDB: what a run touches and leaves *)

Lemma opened_app (t1 t2 : trace) : opened (t1 ++ t2) = opened t1 ++ opened t2.
Proof.
  induction t1 as [|ev t1 IH]; simpl; [reflexivity|].
  destruct ev as [d n [db [e|]]| | | | | | | | | |]; simpl; rewrite IH; reflexivity.
Qed.

Lemma closed_app (t1 t2 : trace) : closed (t1 ++ t2) = closed t1 ++ closed t2.
Proof.
  induction t1 as [|ev t1 IH]; simpl; [reflexivity|].
  destruct ev; simpl; rewrite IH; reflexivity.
Qed.

(** The probe closes the handles it opens, in the order it opens them. *)
Lemma probe_balanced (X : Externals) (c : Resource) (h : trace) :
  exists evs,
    snd (probe X c h) = h ++ evs
    /\ forallb database_call evs = true
    /\ opened evs = closed evs.
Proof.
  unfold probe, bind, sql_Open, DB_Ping, DB_Close, ret, record.
  destruct (ext_Open X h _ _) as [db [e|]]; simpl.
  - eexists. repeat split.
  - eexists. rewrite <- !app_assoc. repeat split.
Qed.

(** So does any number of probes in a row. *)
Lemma Pool_Retry_balanced (X : Externals) (c : Resource) (n : nat) :
  forall h, exists evs,
    snd (Pool_Retry n (probe X c) h) = h ++ evs
    /\ forallb database_call evs = true
    /\ opened evs = closed evs.
Proof.
  induction n as [|n IH]; intros h; simpl; unfold bind;
    destruct (probe_balanced X c h) as (evs & E & F & B);
    destruct (probe X c h) as [[e|] h1]; simpl in *; subst h1; unfold ret; simpl.
  - exists evs; auto.
  - exists evs; auto.
  - destruct (IH (h ++ evs)) as (evs' & E' & F' & B').
    exists (evs ++ evs').
    rewrite E', app_assoc, forallb_app, F, F', opened_app, closed_app, B, B'.
    auto.
  - exists evs; auto.
Qed.

(** What [Connect] opens and closes in each of its runs. *)
Lemma connect_run_handles (d : string) (conn : trace) (db : sqlDB) (err : option error) :
  connect_run d conn (db, err) ->
  closed conn = []
  /\ length (opened conn) <= 1
  /\ (err = None -> opened conn = [db]).
Proof.
  intros H. inversion H; subst; simpl; repeat split; auto; discriminate.
Qed.

(** The runs of [CreateTestMySQLDB] with the account of the handles: the
    handles closed are a beginning of the handles opened, and what remains
    is nothing when the test is skipped, the returned handle when the
    function returns, and at most one handle when the test is failed. *)
Lemma CreateTestMySQLDB_runs_balanced (X : Externals) (h : trace) :
  exists calls rest,
    snd (CreateTestMySQLDB X h) = h ++ calls
    /\ provider_run X calls (fst (CreateTestMySQLDB X h))
    /\ opened calls = closed calls ++ rest
    /\ match fst (CreateTestMySQLDB X h) with
       | Returned r => rest = [DB r]
       | Skipped _ => rest = []
       | Fatal _ => length rest <= 1
       end.
Proof.
  unfold CreateTestMySQLDB.
  unfold bindT, lift, testing_Short, docker_Enabled, dockertest_NewPool,
    Pool_RunWithOptions, Resource_Close, t_Skip, t_Fatal, retT, record.
  destruct (ext_Short X h) eqn:ES.
  { eexists _, []. rewrite <- !app_assoc.
    split; [reflexivity|]. split; [constructor|]. split; reflexivity. }
  destruct (ext_DockerEnabled X _) eqn:ED; cbn [negb].
  2:{ eexists _, []. rewrite <- !app_assoc.
      split; [reflexivity|]. split; [constructor|]. split; reflexivity. }
  destruct (ext_NewPool X _ _) as [pool [e|]] eqn:EN.
  { eexists _, []. rewrite <- !app_assoc.
    split; [reflexivity|]. split; [constructor|]. split; [reflexivity|].
    simpl. lia. }
  destruct (ext_RunWithOptions X _ _ _) as [c [e|]] eqn:ER.
  { eexists _, []. rewrite <- !app_assoc.
    split; [reflexivity|]. split; [constructor|]. split; [reflexivity|].
    simpl. lia. }
  change (mysqlConnection NopLogger "moov" "secret" _ "ofac")
    with (test_config X c).
  match goal with
  | |- context [Pool_Retry ?n ?op ?h0] =>
      destruct (Pool_Retry_balanced X c n h0) as (probes & EP & FP & BP);
      destruct (Pool_Retry n op h0) as [rerr h5]
  end.
  cbn [snd] in EP. subst h5.
  destruct rerr as [e|].
  { exists (provisioning pool c ++ probes ++
            [EvResourceClose c
               (ext_ResourceClose X
                  ((((((h ++ [EvShort false]) ++ [EvDockerEnabled true])
                        ++ [EvNewPool "" (pool, None)])
                       ++ [EvRunWithOptions pool testRunOptions (c, None)])
                      ++ probes)) c); EvFatal e]), [].
    split; [cbn [fst snd]; unfold provisioning; rewrite <- !app_assoc; reflexivity|].
    split; [apply run_unreachable; exact FP|].
    split; [|simpl; lia].
    rewrite !opened_app, !closed_app, BP. simpl. rewrite !app_nil_r. reflexivity. }
  match goal with
  | |- context [Connect X ?my ?h0] =>
      destruct (Connect_run X my h0) as (conn & EC & RC);
      destruct (Connect X my h0) as [[db err] h6]
  end.
  cbn [fst snd] in EC, RC. subst h6.
  destruct (connect_run_handles _ _ _ _ RC) as (Hclosed & Hopened & Hok).
  destruct err as [e|].
  - exists (provisioning pool c ++ probes ++ conn ++ [EvFatal e]), (opened conn).
    split; [cbn [fst snd]; unfold provisioning; rewrite <- !app_assoc; reflexivity|].
    split; [apply run_bootstrap_failed with (db := db); assumption|].
    split; [|exact Hopened].
    rewrite !opened_app, !closed_app, BP, Hclosed. simpl.
    rewrite !app_nil_r. reflexivity.
  - exists (provisioning pool c ++ probes ++ conn), [db].
    split; [cbn [fst snd]; unfold provisioning; rewrite <- !app_assoc; reflexivity|].
    split; [apply run_ready; assumption|].
    split; [|reflexivity].
    rewrite !opened_app, !closed_app, BP, Hclosed, (Hok eq_refl). simpl.
    rewrite !app_nil_r. reflexivity.
Qed.

(** X6: a skipped test has touched nothing.  [CreateTestMySQLDB] skips
    for the short flag after asking for that flag alone, and for missing
    docker after asking for the flag and for docker; in both cases it has
    created no pool, started no container and opened no handle. *)
Theorem CreateTestMySQLDB_skip_touches_nothing :
  forall (X : Externals) (h : trace) (msg : string),
    fst (CreateTestMySQLDB X h) = Skipped msg ->
    (msg = "-short flag enabled"
     /\ calls_of (CreateTestMySQLDB X) h = [EvShort true; EvSkip msg])
    \/ (msg = "Docker not enabled"
        /\ calls_of (CreateTestMySQLDB X) h
           = [EvShort false; EvDockerEnabled false; EvSkip msg]).
Proof.
  intros X h msg Hskip.
  destruct (CreateTestMySQLDB_runs X h) as (calls & Hcalls & Hrun).
  rewrite (calls_of_app _ _ _ Hcalls).
  rewrite Hskip in Hrun.
  inversion Hrun; subst; [left|right]; split; reflexivity.
Qed.

Lemma CreateTestMySQLDB_skip_touches_nothing_witness :
  calls_of (CreateTestMySQLDB short_mode) [] = [EvShort true; EvSkip "-short flag enabled"]
  /\ calls_of (CreateTestMySQLDB no_docker) []
     = [EvShort false; EvDockerEnabled false; EvSkip "Docker not enabled"].
Proof.
  split.
  - destruct (CreateTestMySQLDB_skip_touches_nothing short_mode []
                "-short flag enabled" eq_refl) as [[_ H]|[F _]];
      [exact H|discriminate F].
  - destruct (CreateTestMySQLDB_skip_touches_nothing no_docker []
                "Docker not enabled" eq_refl) as [[F _]|[_ H]];
      [discriminate F|exact H].
Defined.



(** X8: the account of the handles.  In every run of [CreateTestMySQLDB]
    the handles closed are the first handles opened, in the same order,
    and at most one handle opened is not closed: none when the test is
    skipped, the returned one when the function returns. *)
Theorem CreateTestMySQLDB_handle_accounting :
  forall (X : Externals) (h : trace),
    exists rest,
      opened (calls_of (CreateTestMySQLDB X) h)
      = closed (calls_of (CreateTestMySQLDB X) h) ++ rest
      /\ length rest <= 1
      /\ (forall r, fst (CreateTestMySQLDB X h) = Returned r -> rest = [DB r])
      /\ (forall msg, fst (CreateTestMySQLDB X h) = Skipped msg -> rest = []).
Proof.
  intros X h.
  destruct (CreateTestMySQLDB_runs_balanced X h)
    as (calls & rest & Hcalls & _ & Hacc & Hrest).
  rewrite (calls_of_app _ _ _ Hcalls).
  exists rest. split; [exact Hacc|].
  destruct (fst (CreateTestMySQLDB X h)) as [r0|msg0|e0].
  - subst rest. repeat split; [simpl; lia| |discriminate].
    intros r E. inversion E. reflexivity.
  - subst rest. repeat split; [simpl; lia|discriminate].
  - repeat split; [exact Hrest|discriminate|discriminate].
Qed.

(** X10: provider and teardown together.  When [CreateTestMySQLDB] has
    returned a resource and [Close] is then called on it, the calls of the
    two have called [Close] on every handle that was opened, in the order
    of opening, and have started one container, the one of the resource.
    That container is released when its [Close], the first call of the
    teardown, answers without error; when it answers an error the
    teardown drops it and the container is still running. *)
Theorem CreateTestMySQLDB_then_Close_releases_all :
  forall (X : Externals) (h h' : trace) (r : TestMySQLDB),
    CreateTestMySQLDB X h = (Returned r, h') ->
    let x := ext_ResourceClose X h' (container r) in
    let all := skipn (length h) (snd (Close X r h')) in
    opened all = closed all
    /\ started all = [container r]
    /\ (x = None -> still_running all = [])
    /\ (x <> None -> still_running all = [container r]).
Proof.
  intros X h h' r Hrun x all.
  destruct (CreateTestMySQLDB_runs_balanced X h)
    as (calls & rest & Hcalls & Hshape & Hacc & Hrest).
  rewrite Hrun in Hcalls, Hshape, Hrest. cbn [fst snd] in *. subst h' rest.
  pose proof (Close_run X r (h ++ calls)) as EC. cbn zeta in EC.
  assert (Eall : all = calls ++ [EvResourceClose (container r) x;
                                 EvDBClose (DB r)
                                   (ext_DBClose X
                                      ((h ++ calls)
                                         ++ [EvResourceClose (container r) x])
                                      (DB r))]).
  { unfold all. rewrite EC. cbn [snd].
    rewrite <- app_assoc, skipn_app, skipn_all, Nat.sub_diag. reflexivity. }
  rewrite Eall. clear Eall all EC.
  inversion Hshape as [| | | | | |pool c probes conn db FP HC Ecalls Er]; subst.
  pose proof (connect_run_database_calls _ _ _ HC) as FC.
  cbn [container DB] in *.
  assert (Hs : started ((provisioning pool c ++ probes ++ conn)
                        ++ [EvResourceClose c x;
                            EvDBClose db
                              (ext_DBClose X
                                 ((h ++ provisioning pool c ++ probes ++ conn)
                                    ++ [EvResourceClose c x]) db)]) = [c]).
  { rewrite !started_app.
    rewrite (database_calls_start_nothing probes FP).
    rewrite (database_calls_start_nothing conn FC). reflexivity. }
  split; [|split; [exact Hs|]].
  - rewrite opened_app, closed_app, Hacc. simpl.
    rewrite app_nil_r. reflexivity.
  - unfold still_running. rewrite Hs, !released_app.
    rewrite (database_calls_release_nothing probes FP).
    rewrite (database_calls_release_nothing conn FC). simpl.
    split.
    + intros Hx. rewrite Hx. simpl. rewrite Resource_eqb_refl. reflexivity.
    + intros Hx. destruct x as [ex|]; [reflexivity|]. exfalso. apply Hx. reflexivity.
Qed.

Lemma CreateTestMySQLDB_then_Close_releases_all_witness :
  still_running
    (skipn (length (@nil event))
       (snd (Close (scripted None None)
               {| DB := DBHandle 8; container := ContainerHandle 4 |}
               (snd (CreateTestMySQLDB (scripted None None) [])))))
  = [].
Proof.
  destruct (CreateTestMySQLDB_then_Close_releases_all (scripted None None) []
              (snd (CreateTestMySQLDB (scripted None None) []))
              {| DB := DBHandle 8; container := ContainerHandle 4 |} eq_refl)
    as (_ & _ & Hok & _).
  apply Hok. reflexivity.
Defined.

(** X11: the credentials agree.  The user, the password and the database
    the container is started with are those of both data source names:
    for every port the container reports, the probe opens
    [user:password@tcp(localhost:port)/database], and [Connect] opens the
    same followed by the fixed options. *)
Theorem test_credentials_agree :
  exists user pass database,
    getenv "MYSQL_USER" (Env testRunOptions) = Some user
    /\ getenv "MYSQL_PASSWORD" (Env testRunOptions) = Some pass
    /\ getenv "MYSQL_DATABASE" (Env testRunOptions) = Some database
    /\ forall (X : Externals) (c : Resource),
         probe_dsn X c
         = (user ++ ":" ++ pass ++ "@tcp(localhost:"
            ++ Resource_GetPort X c "3306/tcp" ++ ")/" ++ database)%string
         /\ dsn (test_config X c)
            = (probe_dsn X c ++ "?" ++ mysqlOptions)%string.
Proof.
  exists "moov"%string, "secret"%string, "ofac"%string.
  split; [reflexivity|]. split; [reflexivity|]. split; [reflexivity|].
  intros X c. split; [reflexivity|].
  unfold test_config, probe_dsn. rewrite mysqlConnection_dsn. simpl.
  rewrite !append_assoc. reflexivity.
Qed.

Lemma CreateTestMySQLDB_failure_release_witness :
  exists calls t ev,
    snd (CreateTestMySQLDB database_down []) = [] ++ calls
    /\ calls = t ++ [ev; EvFatal (Err "dial tcp: connection refused")]
    /\ ((database_call ev = false
         /\ error_of ev = Some (Err "dial tcp: connection refused")
         /\ started calls = [])
        \/ (exists c x,
               ev = EvResourceClose c x
               /\ started calls = [c]
               /\ (x = None -> still_running calls = [])
               /\ (x <> None -> still_running calls = [c]))
        \/ (database_call ev = true
            /\ error_of ev = Some (Err "dial tcp: connection refused")
            /\ exists c, started calls = [c]
                         /\ removed_before c calls = false
                         /\ still_running calls = [c])).
Proof.
  apply (CreateTestMySQLDB_failure_release database_down []).
  reflexivity.
Defined.
